(** * Sensor routes of the smart-bus IoT back end

    A shallow embedding of [app/routes/sensor_routes.py]: the three request
    handlers [ingest_data], [test_thingspeak] and [get_latest_reading],
    written in a small state-and-exception monad over the things the
    handlers talk to (the MongoDB collection [sensor_readings], the
    ThingSpeak relay, the logger and the settings object). *)

From Stdlib Require Import ZArith NArith Ascii String Sorted.
From Stdlib Require Import Floats.PrimFloat.
From stdpp Require Import base gmap strings list fin_maps sorting pretty.

Local Open Scope Z_scope.

(** ** Python and BSON values *)

(** A BSON [ObjectId] is twelve bytes; it is kept as the number the twelve
    bytes spell in big-endian order, so that the byte-wise order MongoDB
    sorts by is the order of [N]. *)
Definition ObjectId := N.

(** The values a document or a response body holds. [VFloat] carries an
    IEEE-754 binary64, which is what a Python [float] is. *)
#[local] Set Warnings "-register-all".
Inductive value : Type :=
  | VNone
  | VBool (b : bool)
  | VInt (z : Z)
  | VFloat (f : float)
  | VStr (s : string)
  | VObjectId (i : ObjectId)
  | VList (l : list value).

(** A Python [dict] with string keys. *)
Abbreviation pydict := (gmap string value).

(** ** Exceptions

    Every exception below is an instance of a subclass of Python's
    [Exception], which is what [except Exception] catches.
    FastAPI's [HTTPException] is one of them (it derives from Starlette's
    [HTTPException], itself a subclass of [Exception]); every other
    exception is kept by the text [str(e)] gives for it. *)
Inductive exn : Type :=
  | HTTPException (status_code : Z) (detail : string)
  | OtherException (message : string).

Inductive outcome (A : Type) : Type :=
  | Return (a : A)
  | Raise (e : exn).
Arguments Return {A} a.
Arguments Raise {A} e.

(** The HTTP status FastAPI answers with: 200 for a returned body, the
    status code of a raised [HTTPException], and 500 for anything else
    that escapes the handler. *)
Definition http_status {A : Type} (r : outcome A) : Z :=
  match r with
  | Return _ => 200
  | Raise (HTTPException status_code _) => status_code
  | Raise (OtherException _) => 500
  end.

(** ** The world the handlers act on *)

(** A document of the collection: the identifier MongoDB stores under the
    key [_id], and the other fields. *)
Record StoredDocument : Type := {
  _id : ObjectId;
  fields : pydict
}.

Inductive LogLevel : Type := INFO | ERROR.

Record World : Type := {
  (** the collection [db.sensor_readings], oldest insert first *)
  sensor_readings : list StoredDocument;
  (** the calls made to [thingspeak_service.send_data], oldest first *)
  thingspeak_calls : list (float * float);
  (** the records given to [logger], oldest first *)
  log_records : list (LogLevel * string)
}.

(** What the surroundings do during one request: the configured secret,
    the identifier the driver generates for an insert, whether the driver
    fails, and what the relay client answers. *)
Record Env : Type := {
  (** [settings.iot_api_key] *)
  iot_api_key : option string;
  (** the [ObjectId] the driver generates for a document without [_id] *)
  generated_id : ObjectId;
  (** the exception [insert_one] raises, when the driver fails *)
  insert_one_failure : option exn;
  (** the exception [find_one] raises, when the driver fails *)
  find_one_failure : option exn;
  (** what [ThingspeakService.send_data] does with a pair of values *)
  send_data_outcome : float -> float -> outcome bool
}.

(** ** The monad: state that survives an exception *)

Definition M (A : Type) : Type := Env -> World -> outcome A * World.

Definition ret {A : Type} (a : A) : M A := fun _ w => (Return a, w).

Definition bind {A B : Type} (m : M A) (k : A -> M B) : M B :=
  fun env w =>
    match m env w with
    | (Return a, w') => k a env w'
    | (Raise e, w') => (Raise e, w')
    end.

Definition raise {A : Type} (e : exn) : M A := fun _ w => (Raise e, w).

(** [try: body except Exception as e: handler e]. What [body] did to the
    world before it raised stays done. *)
Definition try_except {A : Type} (body : M A) (handler : exn -> M A) : M A :=
  fun env w =>
    match body env w with
    | (Return a, w') => (Return a, w')
    | (Raise e, w') => handler e env w'
    end.

Declare Scope py_scope.
Delimit Scope py_scope with py.
Notation "'let*' x ':=' m 'in' k" := (bind m (fun x => k))
  (at level 10, x name, m at level 100, k at level 200) : py_scope.
Local Open Scope py_scope.

(** ** The logger *)

Definition add_log (level : LogLevel) (msg : string) : M unit :=
  fun _ w =>
    (Return tt,
     {| sensor_readings := sensor_readings w;
        thingspeak_calls := thingspeak_calls w;
        log_records := log_records w ++ [(level, msg)] |}).

Definition logger_info : string -> M unit := add_log INFO.
Definition logger_error : string -> M unit := add_log ERROR.

(** ** The collection [db.sensor_readings] *)

(** [str(ObjectId)]: the twelve bytes as twenty-four lower-case
    hexadecimal digits. *)
Definition hex_digit (d : N) : ascii :=
  match d with
  | 0%N => "0" | 1%N => "1" | 2%N => "2" | 3%N => "3"
  | 4%N => "4" | 5%N => "5" | 6%N => "6" | 7%N => "7"
  | 8%N => "8" | 9%N => "9" | 10%N => "a" | 11%N => "b"
  | 12%N => "c" | 13%N => "d" | 14%N => "e" | _ => "f"
  end%char.

Fixpoint hexlify (digits : nat) (v : N) (acc : string) : string :=
  match digits with
  | O => acc
  | S digits' => hexlify digits' (v / 16)%N (String (hex_digit (v mod 16)%N) acc)
  end.

Definition str_ObjectId (i : ObjectId) : string := hexlify 24 i "".

Record InsertOneResult : Type := { inserted_id : ObjectId }.

Definition has_id (i : ObjectId) (coll : list StoredDocument) : bool :=
  existsb (fun d => N.eqb (_id d) i) coll.

(** [insert_one(document)] for a document that has no [_id] key: the
    driver generates an [ObjectId], the server appends the document, and
    the result carries the identifier. It raises when the driver fails,
    and when the identifier is already taken ([_id] is unique). *)
Definition insert_one (document : pydict) : M InsertOneResult :=
  fun env w =>
    match insert_one_failure env with
    | Some e => (Raise e, w)
    | None =>
        if has_id (generated_id env) (sensor_readings w)
        then (Raise (OtherException "E11000 duplicate key error"), w)
        else
          (Return {| inserted_id := generated_id env |},
           {| sensor_readings :=
                sensor_readings w ++ [{| _id := generated_id env; fields := document |}];
              thingspeak_calls := thingspeak_calls w;
              log_records := log_records w |})
    end.

(** The document a descending sort on [_id] puts first. *)
Fixpoint largest_id (coll : list StoredDocument) : option StoredDocument :=
  match coll with
  | [] => None
  | d :: coll' =>
      match largest_id coll' with
      | None => Some d
      | Some m => if (_id m <? _id d)%N then Some d else Some m
      end
  end.

(** The [dict] the driver hands back for a stored document. *)
Definition to_dict (d : StoredDocument) : pydict :=
  <["_id" := VObjectId (_id d)]> (fields d).

(** [find_one(sort=[("_id", -1)])]: [None] on an empty collection. *)
Definition find_one_sort_id_desc : M (option pydict) :=
  fun env w =>
    match find_one_failure env with
    | Some e => (Raise e, w)
    | None => (Return (to_dict <$> largest_id (sensor_readings w)), w)
    end.

(** ** The relay client *)

(** [thingspeak_service.send_data(temperature, humidity)]: the call is
    made, and returns or raises as the surroundings decide. *)
Definition send_data (temperature humidity : float) : M bool :=
  fun env w =>
    (send_data_outcome env temperature humidity,
     {| sensor_readings := sensor_readings w;
        thingspeak_calls := thingspeak_calls w ++ [(temperature, humidity)];
        log_records := log_records w |}).

(** ** The request body *)

(** Modelled from the spec: the pydantic model [SensorReading] of
    [app/models/sensor.py], which is not among the sources. It has a
    floating-point [temperature] and [humidity], and further
    device-identifying fields; no pydantic field is called [_id] (a field
    name does not start with an underscore). *)
Record SensorReading : Type := {
  temperature : float;
  humidity : float;
  extra : pydict;
  extra_no_id : extra !! "_id" = None
}.

(** [reading.dict()] *)
Definition dict (reading : SensorReading) : pydict :=
  <["temperature" := VFloat (temperature reading)]>
    (<["humidity" := VFloat (humidity reading)]> (extra reading)).

(** ** Python operators the handlers use *)

(** [a != b] on values that are [None] or a [str]. *)
Definition py_ne (a b : option string) : bool := negb (bool_decide (a = b)).

(** [not doc] for what [find_one] returns: [None] and the empty [dict]
    are the falsy ones. *)
Definition py_not (doc : option pydict) : bool :=
  match doc with
  | None => true
  | Some d => bool_decide (size d = 0%nat)
  end.

(** [d.get(key, default)] *)
Definition get (d : pydict) (key : string) (dflt : value) : value :=
  default dflt (d !! key).

(** ** Concrete surroundings, for running the handlers *)

(** [str(e)] of an [HTTPException] as recent Starlette versions give it:
    the status code, a colon, the detail. *)
Definition starlette_str (status_code : Z) (detail : string) : string :=
  pretty status_code +:+ ": " +:+ detail.

(** A formatter that knows the two floats of the examples. *)
Definition sample_str_float (f : float) : string :=
  if PrimFloat.eqb f 25.5%float then "25.5"
  else if PrimFloat.eqb f 80%float then "80.0"
  else "nan".

Definition empty_world : World :=
  {| sensor_readings := []; thingspeak_calls := []; log_records := [] |}.

Definition reading_25_80 : SensorReading :=
  {| temperature := 25.5%float; humidity := 80%float;
     extra := ∅; extra_no_id := eq_refl |}.

(** A device reading that carries one more field. *)
Definition reading_device : SensorReading :=
  {| temperature := 19%float; humidity := 55%float;
     extra := {[ "device_id" := VStr "esp32-01" ]}; extra_no_id := eq_refl |}.

(** Everything works, and the relay accepts. *)
Definition env_ok : Env :=
  {| iot_api_key := Some "secret";
     generated_id := 1000%N;
     insert_one_failure := None;
     find_one_failure := None;
     send_data_outcome := fun _ _ => Return true |}.

(** The relay answers [False]. *)
Definition env_relay_false : Env :=
  {| iot_api_key := Some "secret";
     generated_id := 1001%N;
     insert_one_failure := None;
     find_one_failure := None;
     send_data_outcome := fun _ _ => Return false |}.

(** The relay call raises. *)
Definition env_relay_raises : Env :=
  {| iot_api_key := Some "secret";
     generated_id := 1002%N;
     insert_one_failure := None;
     find_one_failure := None;
     send_data_outcome := fun _ _ => Raise (OtherException "connection reset") |}.

(** The driver cannot reach the server. *)
Definition env_db_down : Env :=
  {| iot_api_key := Some "secret";
     generated_id := 1003%N;
     insert_one_failure := Some (OtherException "ServerSelectionTimeoutError");
     find_one_failure := Some (OtherException "ServerSelectionTimeoutError");
     send_data_outcome := fun _ _ => Return true |}.

(** No secret is configured. *)
Definition env_no_secret : Env :=
  {| iot_api_key := None;
     generated_id := 1004%N;
     insert_one_failure := None;
     find_one_failure := None;
     send_data_outcome := fun _ _ => Return true |}.

(** A collection of two documents; the older one lacks [humidity]. *)
Definition world_two : World :=
  {| sensor_readings :=
       [ {| _id := 7%N; fields := {[ "temperature" := VFloat 21%float ]} |};
         {| _id := 9%N; fields := dict reading_25_80 |} ];
     thingspeak_calls := [];
     log_records := [] |}.

(** A collection whose newest document lacks [humidity]. *)
Definition world_partial : World :=
  {| sensor_readings :=
       [ {| _id := 5%N; fields := dict reading_25_80 |};
         {| _id := 7%N; fields := {[ "temperature" := VFloat 21%float ]} |} ];
     thingspeak_calls := [];
     log_records := [] |}.

(** ** The handlers *)

Section Handlers.

(** [str(x)] of a Python [float], as an f-string formats it. *)
Variable str_float : float -> string.

(** [str(e)] of an [HTTPException], which Starlette defines (and has
    changed between versions). *)
Variable str_HTTPException : Z -> string -> string.

Definition str_exn (e : exn) : string :=
  match e with
  | HTTPException status_code detail => str_HTTPException status_code detail
  | OtherException message => message
  end.

(** [POST /ingest] *)
Definition ingest_data (reading : SensorReading) (x_api_key : option string)
  : M pydict :=
  fun env =>
    (if py_ne x_api_key (iot_api_key env)
     then raise (HTTPException 401 "Chave IoT inválida.")
     else
       try_except
         (let* result := insert_one (dict reading) in
          let* _ := logger_info
                      ("📥 Sensor data saved: " +:+ str_ObjectId (inserted_id result)) in
          let* _ := send_data (temperature reading) (humidity reading) in
          let* _ := logger_info "✅ Dados enviados ao ThingSpeak com sucesso." in
          ret {[ "status" := VStr "ok";
                 "id" := VStr (str_ObjectId (inserted_id result)) ]})
         (fun e =>
            let* _ := logger_error
                        ("❌ Erro ao processar dados do sensor: " +:+ str_exn e) in
            raise (HTTPException 500 (str_exn e)))) env.

(** [GET /test_thingspeak] *)
Definition test_thingspeak (temperature humidity : float) : M pydict :=
  try_except
    (let* success := send_data temperature humidity in
     if success : bool
     then
       ret {[ "status" := VStr "success";
              "message" := VStr ("Dados enviados ao ThingSpeak: "
                                 +:+ str_float temperature +:+ "°C / "
                                 +:+ str_float humidity +:+ "%") ]}
     else raise (HTTPException 400 "Falha ao enviar ao ThingSpeak."))
    (fun e =>
       let* _ := logger_error ("❌ Erro no teste do ThingSpeak: " +:+ str_exn e) in
       raise (HTTPException 500 (str_exn e))).

(** The placeholder list of buses at the stop. *)
Definition onibus : value := VList [VStr "Bus 101"; VStr "Bus 202"].

(** [GET /latest] *)
Definition get_latest_reading : M pydict :=
  try_except
    (let* doc := find_one_sort_id_desc in
     if py_not doc
     then raise (HTTPException 404 "Nenhum dado encontrado")
     else
       match doc with
       | Some doc =>
           let temperatura := get doc "temperature" (VInt 0) in
           let umidade := get doc "humidity" (VInt 0) in
           ret {[ "temperatura" := temperatura;
                  "umidade" := umidade;
                  "onibus" := onibus ]}
       | None =>
           (* not reached: [None] is falsy *)
           raise (OtherException "'NoneType' object has no attribute 'get'")
       end)
    (fun e =>
       raise (HTTPException 500 ("Erro ao buscar última leitura: " +:+ str_exn e))).

(** ** What the collaborators do *)

(** The collection after a successful insert of [document]. *)
Definition inserted (document : pydict) (env : Env) (w : World) : World :=
  {| sensor_readings :=
       sensor_readings w ++ [{| _id := generated_id env; fields := document |}];
     thingspeak_calls := thingspeak_calls w;
     log_records := log_records w |}.

(** Identifiers grow with insertion, as generated [ObjectId]s do (they
    start with the time of creation). *)
Definition ids_increasing (coll : list StoredDocument) : Prop :=
  StronglySorted N.lt (_id <$> coll).

(** *** The router

    The three routes [router] registers, each with the input its handler
    takes. *)
Inductive request : Type :=
  | POST_ingest (reading : SensorReading) (x_api_key : option string)
  | GET_test_thingspeak (temperature humidity : float)
  | GET_latest.

Definition handle (rq : request) : M pydict :=
  match rq with
  | POST_ingest reading x_api_key => ingest_data reading x_api_key
  | GET_test_thingspeak temperature humidity => test_thingspeak temperature humidity
  | GET_latest => get_latest_reading
  end.

Definition is_ingest (rq : request) : bool :=
  match rq with
  | POST_ingest _ _ => true
  | _ => false
  end.

(** Requests served one after the other, each in the surroundings it
    meets; the answers come back in order with the world left behind. *)
Fixpoint serve (requests : list (Env * request)) (w : World)
  : list (outcome pydict) * World :=
  match requests with
  | [] => ([], w)
  | (env, rq) :: rest =>
      let (answer, w') := handle rq env w in
      let (answers, w'') := serve rest w' in
      (answer :: answers, w'')
  end.

(** How many of the requests are for [/ingest]. *)
Definition count_ingest (requests : list (Env * request)) : nat :=
  length (List.filter (fun p => is_ingest (snd p)) requests).

(** A document that carries a float under both keys [/latest] reads. *)
Definition has_measurements (d : StoredDocument) : Prop :=
  exists t h,
    fields d !! "temperature" = Some (VFloat t) /\
    fields d !! "humidity" = Some (VFloat h).

Lemma insert_one_returns document env w r :
  fst (insert_one document env w) = Return r ->
  r = {| inserted_id := generated_id env |} /\
  insert_one document env w = (Return r, inserted document env w).
Proof.
  unfold insert_one, inserted.
  destruct (insert_one_failure env); [discriminate |].
  destruct (has_id _ _); [discriminate |].
  simpl. intros [= <-]. split; reflexivity.
Qed.

Lemma insert_one_raises document env w e :
  fst (insert_one document env w) = Raise e ->
  insert_one document env w = (Raise e, w).
Proof.
  unfold insert_one.
  destruct (insert_one_failure env) as [e' |].
  - simpl. intros [= <-]. reflexivity.
  - destruct (has_id _ _); simpl; [| discriminate].
    intros [= <-]. reflexivity.
Qed.

Lemma hexlify_length digits : forall v acc,
  String.length (hexlify digits v acc) = (digits + String.length acc)%nat.
Proof.
  induction digits as [| digits IH]; intros v acc; simpl.
  - reflexivity.
  - rewrite IH. simpl. lia.
Qed.

Lemma str_ObjectId_length i : String.length (str_ObjectId i) = 24%nat.
Proof. unfold str_ObjectId. rewrite hexlify_length. reflexivity. Qed.

Lemma str_ObjectId_nonempty i : str_ObjectId i <> "".
Proof.
  intros H. pose proof (str_ObjectId_length i) as L.
  rewrite H in L. discriminate.
Qed.

Lemma py_ne_false a b : py_ne a b = false <-> a = b.
Proof.
  unfold py_ne. rewrite negb_false_iff, bool_decide_eq_true. reflexivity.
Qed.

Lemma py_ne_true a b : py_ne a b = true <-> a <> b.
Proof.
  unfold py_ne. rewrite negb_true_iff, bool_decide_eq_false. reflexivity.
Qed.

(** [ingest_data] once the credential has matched and the insert has
    returned. *)
Lemma ingest_data_after_insert reading x_api_key env w r :
  py_ne x_api_key (iot_api_key env) = false ->
  fst (insert_one (dict reading) env w) = Return r ->
  fst (ingest_data reading x_api_key env w) =
    match send_data_outcome env (temperature reading) (humidity reading) with
    | Return _ =>
        Return {[ "status" := VStr "ok";
                  "id" := VStr (str_ObjectId (generated_id env)) ]}
    | Raise e => Raise (HTTPException 500 (str_exn e))
    end /\
  sensor_readings (snd (ingest_data reading x_api_key env w)) =
    sensor_readings w ++ [{| _id := generated_id env; fields := dict reading |}] /\
  thingspeak_calls (snd (ingest_data reading x_api_key env w)) =
    thingspeak_calls w ++ [(temperature reading, humidity reading)].
Proof.
  intros Hkey Hins.
  destruct (insert_one_returns _ _ _ _ Hins) as [-> Hrun].
  unfold ingest_data. rewrite Hkey.
  unfold try_except, bind. rewrite Hrun.
  unfold logger_info, logger_error, add_log, send_data, inserted, ret, raise.
  simpl.
  destruct (send_data_outcome env (temperature reading) (humidity reading));
    simpl; repeat split; reflexivity.
Qed.

(** *** The document [find_one] picks *)

Lemma largest_id_nonempty coll :
  coll <> [] -> exists d, largest_id coll = Some d.
Proof.
  destruct coll as [| d coll']; [congruence |]. intros _. simpl.
  destruct (largest_id coll') as [m |]; [| eauto].
  destruct (_id m <? _id d)%N; eauto.
Qed.

Lemma largest_id_elem coll d :
  largest_id coll = Some d -> d ∈ coll.
Proof.
  revert d. induction coll as [| c coll' IH]; intros d; simpl; [discriminate |].
  destruct (largest_id coll') as [m |].
  - destruct (_id m <? _id c)%N; intros [= <-].
    + apply list_elem_of_here.
    + apply list_elem_of_further, IH. reflexivity.
  - intros [= <-]. apply list_elem_of_here.
Qed.

Lemma largest_id_none coll : largest_id coll = None -> coll = [].
Proof.
  destruct coll as [| c coll']; [reflexivity |]. simpl.
  destruct (largest_id coll') as [m |]; [| discriminate].
  destruct (_id m <? _id c)%N; discriminate.
Qed.

Lemma largest_id_upper coll d :
  largest_id coll = Some d ->
  forall d', d' ∈ coll -> (_id d' <= _id d)%N.
Proof.
  revert d. induction coll as [| c coll' IH]; intros d; simpl; [discriminate |].
  destruct (largest_id coll') as [m |] eqn:Hm.
  - destruct (N.ltb_spec (_id m) (_id c)) as [Hlt | Hge]; intros [= <-] d' Hin.
    + apply elem_of_cons in Hin as [-> | Hin]; [lia |].
      specialize (IH m eq_refl d' Hin). lia.
    + apply elem_of_cons in Hin as [-> | Hin]; [lia |].
      apply (IH m eq_refl d' Hin).
  - apply largest_id_none in Hm. subst coll'.
    intros [= <-] d' Hin.
    apply elem_of_cons in Hin as [-> | Hin]; [lia |].
    inversion Hin.
Qed.

Lemma largest_id_increasing coll :
  ids_increasing coll -> largest_id coll = last coll.
Proof.
  unfold ids_increasing.
  induction coll as [| c coll' IH]; [reflexivity |].
  rewrite fmap_cons. intros Hs.
  apply StronglySorted_inv in Hs as [Hs Hall].
  simpl largest_id. rewrite (IH Hs).
  destruct coll' as [| c' coll'']; [reflexivity |].
  rewrite last_cons_cons.
  destruct (last (c' :: coll'')) as [m |] eqn:Hlast;
    [| apply last_None in Hlast; discriminate].
  assert (Hin : _id m ∈ _id <$> (c' :: coll'')).
  { apply list_elem_of_fmap_2. apply last_Some_elem_of. exact Hlast. }
  rewrite Forall_forall in Hall. specialize (Hall _ Hin).
  destruct (N.ltb_spec (_id m) (_id c)); [lia | reflexivity].
Qed.

Lemma py_not_to_dict d : py_not (Some (to_dict d)) = false.
Proof.
  unfold py_not, to_dict. apply bool_decide_eq_false.
  rewrite map_size_empty_iff. apply insert_non_empty.
Qed.

Lemma get_to_dict d key dflt :
  key <> "_id" -> get (to_dict d) key dflt = default dflt (fields d !! key).
Proof.
  intros Hne. unfold get, to_dict.
  rewrite lookup_insert_ne by congruence. reflexivity.
Qed.

(** [reading.dict()] never carries an [_id], so the driver generates one. *)
Lemma dict_no_id reading : dict reading !! "_id" = None.
Proof.
  unfold dict. rewrite !lookup_insert_ne by discriminate.
  apply extra_no_id.
Qed.

(** [get_latest_reading] once [find_one] has answered. *)
Lemma get_latest_reading_found env w d :
  find_one_failure env = None ->
  largest_id (sensor_readings w) = Some d ->
  get_latest_reading env w =
    (Return {[ "temperatura" := default (VInt 0) (fields d !! "temperature");
               "umidade" := default (VInt 0) (fields d !! "humidity");
               "onibus" := onibus ]}, w).
Proof.
  intros Hok Hd.
  unfold get_latest_reading, try_except, bind, find_one_sort_id_desc.
  rewrite Hok, Hd.
  change (to_dict <$> Some d) with (Some (to_dict d)). cbv beta iota.
  rewrite py_not_to_dict, !get_to_dict by discriminate. reflexivity.
Qed.

Lemma get_latest_reading_none env w :
  find_one_failure env = None ->
  sensor_readings w = [] ->
  get_latest_reading env w =
    (Raise (HTTPException 500
              ("Erro ao buscar última leitura: "
               +:+ str_HTTPException 404 "Nenhum dado encontrado")), w).
Proof.
  intros Hok Hempty.
  unfold get_latest_reading, try_except, bind, find_one_sort_id_desc.
  rewrite Hok, Hempty. reflexivity.
Qed.

Lemma get_latest_reading_query_fails env w e :
  find_one_failure env = Some e ->
  get_latest_reading env w =
    (Raise (HTTPException 500 ("Erro ao buscar última leitura: " +:+ str_exn e)), w).
Proof.
  intros Hfail.
  unfold get_latest_reading, try_except, bind, find_one_sort_id_desc.
  rewrite Hfail. reflexivity.
Qed.

(** *** [ingest_data] outside the happy path *)

Lemma ingest_data_mismatch reading x_api_key env w :
  x_api_key <> iot_api_key env ->
  ingest_data reading x_api_key env w =
    (Raise (HTTPException 401 "Chave IoT inválida."), w).
Proof.
  intros Hne. apply py_ne_true in Hne.
  unfold ingest_data. rewrite Hne. reflexivity.
Qed.

Lemma ingest_data_after_failed_insert reading x_api_key env w e :
  x_api_key = iot_api_key env ->
  fst (insert_one (dict reading) env w) = Raise e ->
  fst (ingest_data reading x_api_key env w) =
    Raise (HTTPException 500 (str_exn e)) /\
  sensor_readings (snd (ingest_data reading x_api_key env w)) = sensor_readings w /\
  thingspeak_calls (snd (ingest_data reading x_api_key env w)) = thingspeak_calls w.
Proof.
  intros Hkey Hins. apply py_ne_false in Hkey.
  apply insert_one_raises in Hins.
  unfold ingest_data. rewrite Hkey.
  unfold try_except, bind. rewrite Hins.
  repeat split; reflexivity.
Qed.

Lemma insert_one_cases document env w :
  (exists r, fst (insert_one document env w) = Return r) \/
  (exists e, fst (insert_one document env w) = Raise e).
Proof.
  destruct (fst (insert_one document env w)) as [r | e]; eauto.
Qed.

(** Past the credential check the answer is a body or a 500. *)
Lemma ingest_data_authenticated_status reading x_api_key env w :
  x_api_key = iot_api_key env ->
  http_status (fst (ingest_data reading x_api_key env w)) = 200 \/
  http_status (fst (ingest_data reading x_api_key env w)) = 500.
Proof.
  intros Hkey.
  destruct (insert_one_cases (dict reading) env w) as [[r Hr] | [e He]].
  - destruct (ingest_data_after_insert reading x_api_key env w r
                (proj2 (py_ne_false _ _) Hkey) Hr) as (-> & _ & _).
    destruct (send_data_outcome env (temperature reading) (humidity reading));
      [left | right]; reflexivity.
  - destruct (ingest_data_after_failed_insert reading x_api_key env w e Hkey He)
      as (-> & _ & _).
    right. reflexivity.
Qed.

(** What [ingest_data] does to the collection: nothing, or one append. *)
Lemma ingest_data_store reading x_api_key env w :
  sensor_readings (snd (ingest_data reading x_api_key env w)) = sensor_readings w \/
  sensor_readings (snd (ingest_data reading x_api_key env w)) =
    sensor_readings w ++ [{| _id := generated_id env; fields := dict reading |}].
Proof.
  destruct (decide (x_api_key = iot_api_key env)) as [Hkey | Hne].
  - destruct (insert_one_cases (dict reading) env w) as [[r Hr] | [e He]].
    + right.
      apply (ingest_data_after_insert reading x_api_key env w r
               (proj2 (py_ne_false _ _) Hkey) Hr).
    + left. apply (ingest_data_after_failed_insert reading x_api_key env w e Hkey He).
  - left. rewrite (ingest_data_mismatch _ _ _ _ Hne). reflexivity.
Qed.

(** Identifiers that grow keep the newest document last. *)
Lemma ingest_data_keeps_ids_increasing reading x_api_key env w :
  ids_increasing (sensor_readings w) ->
  (forall d, d ∈ sensor_readings w -> (_id d < generated_id env)%N) ->
  ids_increasing (sensor_readings (snd (ingest_data reading x_api_key env w))).
Proof.
  intros Hinc Hnew.
  destruct (ingest_data_store reading x_api_key env w) as [-> | ->];
    [exact Hinc |].
  unfold ids_increasing in *. rewrite fmap_app.
  apply StronglySorted_app_2; [| exact Hinc | repeat constructor].
  intros i j Hi Hj.
  apply list_elem_of_fmap in Hi as (d & -> & Hd).
  apply list_elem_of_singleton in Hj as ->.
  apply Hnew, Hd.
Qed.

(** ** The claims about [/ingest] *)

(** C1 (amended): on a request to [/ingest] with the correct credential
    whose store insert succeeds, the handler returns the success
    acknowledgment with the stored identifier whenever the relay call
    returns, be it [True] or [False]; when the relay call raises, the
    handler answers 500 with the failure's description. *)
Theorem ingest_data_relay_outcome reading x_api_key env w r :
  x_api_key = iot_api_key env ->
  fst (insert_one (dict reading) env w) = Return r ->
  (forall b,
      send_data_outcome env (temperature reading) (humidity reading) = Return b ->
      fst (ingest_data reading x_api_key env w) =
        Return {[ "status" := VStr "ok";
                  "id" := VStr (str_ObjectId (inserted_id r)) ]}) /\
  (forall e,
      send_data_outcome env (temperature reading) (humidity reading) = Raise e ->
      fst (ingest_data reading x_api_key env w) =
        Raise (HTTPException 500 (str_exn e))).
Proof.
  intros Hkey Hins. apply py_ne_false in Hkey.
  destruct (ingest_data_after_insert _ _ _ _ _ Hkey Hins) as (Hres & _ & _).
  destruct (insert_one_returns _ _ _ _ Hins) as [-> _]. simpl inserted_id.
  split; [intros b Hb | intros e He]; rewrite Hres; [rewrite Hb | rewrite He];
    reflexivity.
Qed.

(** C4: a request to [/ingest] whose credential differs from the
    configured secret is answered with 401; the collection gets no
    insert and the relay gets no call. *)
Theorem ingest_data_bad_key reading x_api_key env w :
  x_api_key <> iot_api_key env ->
  fst (ingest_data reading x_api_key env w) =
    Raise (HTTPException 401 "Chave IoT inválida.") /\
  sensor_readings (snd (ingest_data reading x_api_key env w)) = sensor_readings w /\
  thingspeak_calls (snd (ingest_data reading x_api_key env w)) = thingspeak_calls w.
Proof.
  intros Hne. rewrite (ingest_data_mismatch _ _ _ _ Hne).
  repeat split; reflexivity.
Qed.

(** C5 (amended): for a reading submitted to [/ingest] with the correct
    credential, when the insert succeeds and the relay call returns
    (whatever it returns), exactly one document is appended to the
    collection and the response is [{status: ok, id: ...}] with the
    non-empty string form of the identifier generated for that insert. *)
Theorem ingest_data_inserts_one reading x_api_key env w r b :
  x_api_key = iot_api_key env ->
  fst (insert_one (dict reading) env w) = Return r ->
  send_data_outcome env (temperature reading) (humidity reading) = Return b ->
  sensor_readings (snd (ingest_data reading x_api_key env w)) =
    sensor_readings w ++ [{| _id := inserted_id r; fields := dict reading |}] /\
  fst (ingest_data reading x_api_key env w) =
    Return {[ "status" := VStr "ok";
              "id" := VStr (str_ObjectId (inserted_id r)) ]} /\
  inserted_id r = generated_id env /\
  str_ObjectId (inserted_id r) <> "".
Proof.
  intros Hkey Hins Hrelay. apply py_ne_false in Hkey.
  destruct (ingest_data_after_insert _ _ _ _ _ Hkey Hins) as (Hres & Hstore & _).
  destruct (insert_one_returns _ _ _ _ Hins) as [-> _]. simpl inserted_id.
  rewrite Hres, Hstore, Hrelay.
  repeat split. apply str_ObjectId_nonempty.
Qed.

(** C9: with the credential header absent ([None]), [/ingest] answers
    401 without touching the collection whenever the configured secret
    is not [None]; and the 401 is given exactly then, so the absent
    header authenticates exactly when the configured secret is [None]. *)
Theorem ingest_data_absent_header reading env w :
  (iot_api_key env <> None ->
     ingest_data reading None env w =
       (Raise (HTTPException 401 "Chave IoT inválida."), w)) /\
  (http_status (fst (ingest_data reading None env w)) = 401
     <-> iot_api_key env <> None).
Proof.
  split.
  - intros Hne. apply ingest_data_mismatch. congruence.
  - split.
    + intros Hstatus Hnone.
      destruct (ingest_data_authenticated_status reading None env w)
        as [H | H]; [congruence | |]; rewrite H in Hstatus; discriminate.
    + intros Hne. rewrite ingest_data_mismatch by congruence. reflexivity.
Qed.

(** C10: in [/ingest], when the insert raises, no relay call is made
    and the answer is 500 with the failure's message as detail; and a
    relay call is only ever made after the insert has returned and the
    document is in the collection. *)
Theorem ingest_data_insert_raises reading x_api_key env w :
  (forall e,
      x_api_key = iot_api_key env ->
      fst (insert_one (dict reading) env w) = Raise e ->
      fst (ingest_data reading x_api_key env w) =
        Raise (HTTPException 500 (str_exn e)) /\
      thingspeak_calls (snd (ingest_data reading x_api_key env w)) =
        thingspeak_calls w /\
      sensor_readings (snd (ingest_data reading x_api_key env w)) =
        sensor_readings w) /\
  (thingspeak_calls (snd (ingest_data reading x_api_key env w)) <>
     thingspeak_calls w ->
   exists r,
     fst (insert_one (dict reading) env w) = Return r /\
     sensor_readings (snd (ingest_data reading x_api_key env w)) =
       sensor_readings w ++ [{| _id := inserted_id r; fields := dict reading |}]).
Proof.
  split.
  - intros e Hkey Hins.
    destruct (ingest_data_after_failed_insert _ _ _ _ _ Hkey Hins)
      as (Hres & Hstore & Hcalls).
    auto.
  - intros Hcalled.
    destruct (decide (x_api_key = iot_api_key env)) as [Hkey | Hne].
    + destruct (insert_one_cases (dict reading) env w) as [[r Hr] | [e He]].
      * exists r. split; [exact Hr |].
        destruct (ingest_data_after_insert _ _ _ _ _
                    (proj2 (py_ne_false _ _) Hkey) Hr) as (_ & Hstore & _).
        destruct (insert_one_returns _ _ _ _ Hr) as [-> _]. exact Hstore.
      * destruct (ingest_data_after_failed_insert _ _ _ _ _ Hkey He)
          as (_ & _ & Hcalls).
        contradiction.
    + rewrite (ingest_data_mismatch _ _ _ _ Hne) in Hcalled. contradiction.
Qed.

(** ** The claims about [/test_thingspeak] *)

(** C3, on the code: when the relay client returns [False] without
    raising, the handler raises its 400 inside the [try], the
    [except Exception] clause catches it, and the answer is 500 with
    the text of the caught 400 as detail. *)
Theorem test_thingspeak_false_is_500 temperature humidity env w :
  send_data_outcome env temperature humidity = Return false ->
  fst (test_thingspeak temperature humidity env w) =
    Raise (HTTPException 500
             (str_HTTPException 400 "Falha ao enviar ao ThingSpeak.")) /\
  http_status (fst (test_thingspeak temperature humidity env w)) = 500.
Proof.
  intros Hfalse.
  unfold test_thingspeak, try_except, bind, send_data.
  rewrite Hfalse. split; reflexivity.
Qed.

(** C7: when the relay client reports success, [/test_thingspeak]
    returns a success body whose message carries the two query values,
    formatted as Python formats a float. *)
Theorem test_thingspeak_success temperature humidity env w :
  send_data_outcome env temperature humidity = Return true ->
  fst (test_thingspeak temperature humidity env w) =
    Return {[ "status" := VStr "success";
              "message" := VStr ("Dados enviados ao ThingSpeak: "
                                 +:+ str_float temperature +:+ "°C / "
                                 +:+ str_float humidity +:+ "%") ]} /\
  thingspeak_calls (snd (test_thingspeak temperature humidity env w)) =
    thingspeak_calls w ++ [(temperature, humidity)].
Proof.
  intros Hok.
  unfold test_thingspeak, try_except, bind, send_data.
  rewrite Hok. split; reflexivity.
Qed.

(** ** The claims about [/latest] *)

(** C2, on the code: on an empty collection the handler raises its 404
    inside the [try], the [except Exception] clause catches it, and the
    answer is 500. *)
Theorem get_latest_reading_empty_is_500 env w :
  sensor_readings w = [] ->
  http_status (fst (get_latest_reading env w)) = 500 /\
  (find_one_failure env = None ->
   fst (get_latest_reading env w) =
     Raise (HTTPException 500
              ("Erro ao buscar última leitura: "
               +:+ str_HTTPException 404 "Nenhum dado encontrado"))).
Proof.
  intros Hempty. split.
  - destruct (find_one_failure env) as [e |] eqn:Hf.
    + rewrite (get_latest_reading_query_fails _ _ _ Hf). reflexivity.
    + rewrite (get_latest_reading_none _ _ Hf Hempty). reflexivity.
  - intros Hf. rewrite (get_latest_reading_none _ _ Hf Hempty). reflexivity.
Qed.

(** C6: on a non-empty collection that answers the query, [/latest]
    returns the temperature and humidity of the document with the
    largest identifier, which is the one inserted last when identifiers
    grow with insertion; a field the document lacks is given as the
    integer zero, and the bus list is the same two names. *)
Theorem get_latest_reading_newest env w :
  sensor_readings w <> [] ->
  find_one_failure env = None ->
  exists d,
    d ∈ sensor_readings w /\
    (forall d', d' ∈ sensor_readings w -> (_id d' <= _id d)%N) /\
    (ids_increasing (sensor_readings w) -> last (sensor_readings w) = Some d) /\
    fst (get_latest_reading env w) =
      Return {[ "temperatura" :=
                  match fields d !! "temperature" with
                  | Some v => v
                  | None => VInt 0
                  end;
                "umidade" :=
                  match fields d !! "humidity" with
                  | Some v => v
                  | None => VInt 0
                  end;
                "onibus" := VList [VStr "Bus 101"; VStr "Bus 202"] ]}.
Proof.
  intros Hne Hok.
  destruct (largest_id_nonempty _ Hne) as [d Hd].
  exists d. split; [| split; [| split]].
  - apply largest_id_elem. exact Hd.
  - apply largest_id_upper. exact Hd.
  - intros Hinc. rewrite <- (largest_id_increasing _ Hinc). exact Hd.
  - rewrite (get_latest_reading_found _ _ _ Hok Hd). reflexivity.
Qed.

(** C8: [/latest] leaves the world as it found it, its answer depends
    on the world only through the collection, and so calling it again
    gives the same answer. *)
Theorem get_latest_reading_idempotent env w :
  snd (get_latest_reading env w) = w /\
  (forall env' w',
      find_one_failure env' = find_one_failure env ->
      sensor_readings w' = sensor_readings w ->
      fst (get_latest_reading env' w') = fst (get_latest_reading env w)) /\
  get_latest_reading env (snd (get_latest_reading env w)) =
    get_latest_reading env w.
Proof.
  assert (Hsame : forall v, snd (get_latest_reading env v) = v).
  { intros v.
    unfold get_latest_reading, try_except, bind, find_one_sort_id_desc.
    destruct (find_one_failure env); [reflexivity |].
    destruct (largest_id (sensor_readings v)) as [d |]; [| reflexivity].
    change (to_dict <$> Some d) with (Some (to_dict d)). cbv beta iota.
    rewrite py_not_to_dict. reflexivity. }
  split; [apply Hsame | split].
  - intros env' w' Hdriver Hstore.
    unfold get_latest_reading, try_except, bind, find_one_sort_id_desc.
    rewrite Hdriver, Hstore.
    destruct (find_one_failure env); [reflexivity |].
    destruct (largest_id (sensor_readings w)) as [d |]; [| reflexivity].
    change (to_dict <$> Some d) with (Some (to_dict d)). cbv beta iota.
    rewrite py_not_to_dict. reflexivity.
  - rewrite Hsame. reflexivity.
Qed.

(** ** The handlers step by step *)

(** [ingest_data] in full, once the credential has matched and the insert
    has returned. *)
Lemma ingest_data_run reading x_api_key env w r :
  x_api_key = iot_api_key env ->
  fst (insert_one (dict reading) env w) = Return r ->
  ingest_data reading x_api_key env w =
    match send_data_outcome env (temperature reading) (humidity reading) with
    | Return _ =>
        (Return {[ "status" := VStr "ok";
                   "id" := VStr (str_ObjectId (generated_id env)) ]},
         {| sensor_readings :=
              sensor_readings w
                ++ [{| _id := generated_id env; fields := dict reading |}];
            thingspeak_calls :=
              thingspeak_calls w ++ [(temperature reading, humidity reading)];
            log_records :=
              (log_records w
                 ++ [(INFO, "📥 Sensor data saved: "
                            +:+ str_ObjectId (generated_id env))])
                ++ [(INFO, "✅ Dados enviados ao ThingSpeak com sucesso.")] |})
    | Raise e =>
        (Raise (HTTPException 500 (str_exn e)),
         {| sensor_readings :=
              sensor_readings w
                ++ [{| _id := generated_id env; fields := dict reading |}];
            thingspeak_calls :=
              thingspeak_calls w ++ [(temperature reading, humidity reading)];
            log_records :=
              (log_records w
                 ++ [(INFO, "📥 Sensor data saved: "
                            +:+ str_ObjectId (generated_id env))])
                ++ [(ERROR, "❌ Erro ao processar dados do sensor: "
                            +:+ str_exn e)] |})
    end.
Proof.
  intros Hkey Hins. apply py_ne_false in Hkey.
  destruct (insert_one_returns _ _ _ _ Hins) as [-> Hrun].
  unfold ingest_data. rewrite Hkey.
  unfold try_except, bind. rewrite Hrun.
  unfold logger_info, logger_error, add_log, send_data, inserted, ret, raise.
  simpl.
  destruct (send_data_outcome env (temperature reading) (humidity reading));
    reflexivity.
Qed.

(** [ingest_data] in full, when the insert raises. *)
Lemma ingest_data_run_insert_raises reading x_api_key env w e :
  x_api_key = iot_api_key env ->
  fst (insert_one (dict reading) env w) = Raise e ->
  ingest_data reading x_api_key env w =
    (Raise (HTTPException 500 (str_exn e)),
     {| sensor_readings := sensor_readings w;
        thingspeak_calls := thingspeak_calls w;
        log_records :=
          log_records w
            ++ [(ERROR, "❌ Erro ao processar dados do sensor: " +:+ str_exn e)] |}).
Proof.
  intros Hkey Hins. apply py_ne_false in Hkey.
  apply insert_one_raises in Hins.
  unfold ingest_data. rewrite Hkey.
  unfold try_except, bind. rewrite Hins. reflexivity.
Qed.

(** [test_thingspeak] in full. *)
Lemma test_thingspeak_run temperature humidity env w :
  test_thingspeak temperature humidity env w =
    let called :=
      {| sensor_readings := sensor_readings w;
         thingspeak_calls := thingspeak_calls w ++ [(temperature, humidity)];
         log_records := log_records w |} in
    let failed detail :=
      (Raise (HTTPException 500 detail),
       {| sensor_readings := sensor_readings w;
          thingspeak_calls := thingspeak_calls w ++ [(temperature, humidity)];
          log_records :=
            log_records w
              ++ [(ERROR, "❌ Erro no teste do ThingSpeak: " +:+ detail)] |}) in
    match send_data_outcome env temperature humidity with
    | Return true =>
        (Return {[ "status" := VStr "success";
                   "message" := VStr ("Dados enviados ao ThingSpeak: "
                                      +:+ str_float temperature +:+ "°C / "
                                      +:+ str_float humidity +:+ "%") ]},
         called)
    | Return false =>
        failed (str_HTTPException 400 "Falha ao enviar ao ThingSpeak.")
    | Raise e => failed (str_exn e)
    end.
Proof.
  unfold test_thingspeak, try_except, bind, send_data.
  destruct (send_data_outcome env temperature humidity) as [[|] | e];
    reflexivity.
Qed.

(** What [get_latest_reading] answers, case by case. *)
Lemma get_latest_reading_cases env w :
  (exists d,
      find_one_failure env = None /\
      largest_id (sensor_readings w) = Some d /\
      get_latest_reading env w =
        (Return {[ "temperatura" := default (VInt 0) (fields d !! "temperature");
                   "umidade" := default (VInt 0) (fields d !! "humidity");
                   "onibus" := onibus ]}, w)) \/
  ((find_one_failure env <> None \/ sensor_readings w = []) /\
   exists detail,
     get_latest_reading env w = (Raise (HTTPException 500 detail), w)).
Proof.
  destruct (find_one_failure env) as [e |] eqn:Hf.
  - right. split; [left; discriminate |].
    eexists. apply get_latest_reading_query_fails. exact Hf.
  - destruct (largest_id (sensor_readings w)) as [d |] eqn:Hd.
    + left. exists d. repeat split.
      apply get_latest_reading_found; assumption.
    + right. apply largest_id_none in Hd. split; [right; exact Hd |].
      eexists. apply get_latest_reading_none; assumption.
Qed.

(** The newest document is the largest once its identifier tops the rest. *)
Lemma largest_id_snoc coll x :
  (forall d, d ∈ coll -> (_id d < _id x)%N) ->
  largest_id (coll ++ [x]) = Some x.
Proof.
  induction coll as [| c coll' IH]; intros Hnew; [reflexivity |].
  simpl. rewrite IH.
  - assert (_id c < _id x)%N by (apply Hnew; apply list_elem_of_here).
    destruct (N.ltb_spec (_id x) (_id c)); [lia | reflexivity].
  - intros d Hd. apply Hnew. apply list_elem_of_further. exact Hd.
Qed.

Lemma dict_temperature reading :
  dict reading !! "temperature" = Some (VFloat (temperature reading)).
Proof. unfold dict. apply lookup_insert_eq. Qed.

Lemma dict_humidity reading :
  dict reading !! "humidity" = Some (VFloat (humidity reading)).
Proof.
  unfold dict. rewrite lookup_insert_ne by discriminate.
  apply lookup_insert_eq.
Qed.

(** ** More on [/ingest] *)

(** X1: [/ingest] answers 200, 401 or 500 and nothing else; 401 exactly
    when the credential differs from the configured secret; 200 exactly
    when the credential matches, the insert returns and the relay call
    returns. *)
Theorem ingest_data_status reading x_api_key env w :
  (http_status (fst (ingest_data reading x_api_key env w)) = 200 \/
   http_status (fst (ingest_data reading x_api_key env w)) = 401 \/
   http_status (fst (ingest_data reading x_api_key env w)) = 500) /\
  (http_status (fst (ingest_data reading x_api_key env w)) = 401
     <-> x_api_key <> iot_api_key env) /\
  (http_status (fst (ingest_data reading x_api_key env w)) = 200
     <-> x_api_key = iot_api_key env /\
         (exists r, fst (insert_one (dict reading) env w) = Return r) /\
         (exists b, send_data_outcome env (temperature reading)
                      (humidity reading) = Return b)).
Proof.
  destruct (decide (x_api_key = iot_api_key env)) as [Hkey | Hne].
  - destruct (insert_one_cases (dict reading) env w) as [[r Hr] | [e He]].
    + rewrite (ingest_data_run _ _ _ _ _ Hkey Hr).
      destruct (send_data_outcome env (temperature reading) (humidity reading))
        as [b | e]; simpl; (split; [| split]).
      * left. reflexivity.
      * split; [discriminate | contradiction].
      * split; [| reflexivity]. intros _. eauto.
      * right. right. reflexivity.
      * split; [discriminate | contradiction].
      * split; [discriminate |]. intros (_ & _ & [b Hb]). discriminate.
    + rewrite (ingest_data_run_insert_raises _ _ _ _ _ Hkey He). simpl.
      split; [| split].
      * right. right. reflexivity.
      * split; [discriminate | contradiction].
      * split; [discriminate |]. intros (_ & [r Hr] & _). congruence.
  - rewrite (ingest_data_mismatch _ _ _ _ Hne). simpl.
    split; [| split].
    + right. left. reflexivity.
    + split; [intros _; exact Hne | reflexivity].
    + split; [discriminate |]. intros (Hkey & _). contradiction.
Qed.

(** X2: once the insert has returned, [/ingest] has appended the document
    and called the relay exactly once, with the reading's temperature and
    humidity, whatever the relay then does; when the relay call raises,
    the answer is 500 and the document stays in the collection. *)
Theorem ingest_data_no_rollback reading x_api_key env w r :
  x_api_key = iot_api_key env ->
  fst (insert_one (dict reading) env w) = Return r ->
  sensor_readings (snd (ingest_data reading x_api_key env w)) =
    sensor_readings w ++ [{| _id := inserted_id r; fields := dict reading |}] /\
  thingspeak_calls (snd (ingest_data reading x_api_key env w)) =
    thingspeak_calls w ++ [(temperature reading, humidity reading)] /\
  (forall e,
      send_data_outcome env (temperature reading) (humidity reading) = Raise e ->
      http_status (fst (ingest_data reading x_api_key env w)) = 500).
Proof.
  intros Hkey Hins.
  rewrite (ingest_data_run _ _ _ _ _ Hkey Hins).
  destruct (insert_one_returns _ _ _ _ Hins) as [-> _]. simpl inserted_id.
  destruct (send_data_outcome env (temperature reading) (humidity reading));
    repeat split; intros e' He'; discriminate.
Qed.

(** X3: when the insert returns and the relay call returns, [/ingest]
    logs two INFO records, the saved identifier and then the relay
    success line, and it logs that success line even when the relay
    returned [False]. *)
Theorem ingest_data_logs_success reading x_api_key env w r b :
  x_api_key = iot_api_key env ->
  fst (insert_one (dict reading) env w) = Return r ->
  send_data_outcome env (temperature reading) (humidity reading) = Return b ->
  log_records (snd (ingest_data reading x_api_key env w)) =
    log_records w
      ++ [ (INFO, "📥 Sensor data saved: " +:+ str_ObjectId (inserted_id r));
           (INFO, "✅ Dados enviados ao ThingSpeak com sucesso.") ].
Proof.
  intros Hkey Hins Hrelay.
  rewrite (ingest_data_run _ _ _ _ _ Hkey Hins), Hrelay.
  destruct (insert_one_returns _ _ _ _ Hins) as [-> _]. simpl.
  rewrite <- app_assoc. reflexivity.
Qed.

(** X4: every 500 of [/ingest] comes with an ERROR record, the last one
    logged, that ends with the very detail the caller receives; a 401
    logs nothing. *)
Theorem ingest_data_error_logged reading x_api_key env w :
  (http_status (fst (ingest_data reading x_api_key env w)) = 500 ->
   exists detail,
     fst (ingest_data reading x_api_key env w) =
       Raise (HTTPException 500 detail) /\
     last (log_records (snd (ingest_data reading x_api_key env w))) =
       Some (ERROR, "❌ Erro ao processar dados do sensor: " +:+ detail)) /\
  (http_status (fst (ingest_data reading x_api_key env w)) = 401 ->
   log_records (snd (ingest_data reading x_api_key env w)) = log_records w).
Proof.
  destruct (decide (x_api_key = iot_api_key env)) as [Hkey | Hne].
  - destruct (insert_one_cases (dict reading) env w) as [[r Hr] | [e He]].
    + rewrite (ingest_data_run _ _ _ _ _ Hkey Hr).
      destruct (send_data_outcome env (temperature reading) (humidity reading))
        as [b | e]; simpl; (split; [| discriminate]).
      * discriminate.
      * intros _. exists (str_exn e). split; [reflexivity | apply last_snoc].
    + rewrite (ingest_data_run_insert_raises _ _ _ _ _ Hkey He). simpl.
      split; [| discriminate].
      intros _. exists (str_exn e). split; [reflexivity | apply last_snoc].
  - rewrite (ingest_data_mismatch _ _ _ _ Hne). simpl.
    split; [discriminate | reflexivity].
Qed.

(** ** More on [/test_thingspeak] *)

(** X5: [/test_thingspeak] never writes to the collection and calls the
    relay exactly once with the two query values; it answers 200 exactly
    when the relay returned [True], and 500 otherwise. *)
Theorem test_thingspeak_effects temperature humidity env w :
  sensor_readings (snd (test_thingspeak temperature humidity env w)) =
    sensor_readings w /\
  thingspeak_calls (snd (test_thingspeak temperature humidity env w)) =
    thingspeak_calls w ++ [(temperature, humidity)] /\
  (http_status (fst (test_thingspeak temperature humidity env w)) = 200
     <-> send_data_outcome env temperature humidity = Return true) /\
  (http_status (fst (test_thingspeak temperature humidity env w)) = 200 \/
   http_status (fst (test_thingspeak temperature humidity env w)) = 500).
Proof.
  rewrite test_thingspeak_run. cbv zeta.
  destruct (send_data_outcome env temperature humidity) as [[|] | e]; simpl;
    repeat split; try discriminate; auto.
Qed.

(** X6: [/test_thingspeak] logs nothing when the relay returned [True];
    in every other case it logs one ERROR record that ends with the
    detail of the 500 it answers. *)
Theorem test_thingspeak_error_logged temperature humidity env w :
  (send_data_outcome env temperature humidity = Return true ->
   log_records (snd (test_thingspeak temperature humidity env w)) =
     log_records w) /\
  (send_data_outcome env temperature humidity <> Return true ->
   exists detail,
     fst (test_thingspeak temperature humidity env w) =
       Raise (HTTPException 500 detail) /\
     log_records (snd (test_thingspeak temperature humidity env w)) =
       log_records w
         ++ [(ERROR, "❌ Erro no teste do ThingSpeak: " +:+ detail)]).
Proof.
  rewrite test_thingspeak_run. cbv zeta.
  destruct (send_data_outcome env temperature humidity) as [[|] | e]; simpl;
    (split; [intros H; try discriminate H; reflexivity | intros H]).
  - contradiction.
  - eexists. split; reflexivity.
  - eexists. split; reflexivity.
Qed.

(** ** More on [/latest] *)


(** X8: a reading that [/ingest] has stored is what [/latest] shows next,
    provided its identifier is larger than those already stored and the
    query succeeds; this holds whatever the relay did, also when
    [/ingest] itself answered 500 because the relay call raised. *)
Theorem latest_after_ingest reading x_api_key env env' w r :
  x_api_key = iot_api_key env ->
  fst (insert_one (dict reading) env w) = Return r ->
  (forall d, d ∈ sensor_readings w -> (_id d < generated_id env)%N) ->
  find_one_failure env' = None ->
  fst (get_latest_reading env' (snd (ingest_data reading x_api_key env w))) =
    Return {[ "temperatura" := VFloat (temperature reading);
              "umidade" := VFloat (humidity reading);
              "onibus" := VList [VStr "Bus 101"; VStr "Bus 202"] ]}.
Proof.
  intros Hkey Hins Hnew Hquery.
  destruct (ingest_data_after_insert _ _ _ _ _
              (proj2 (py_ne_false _ _) Hkey) Hins) as (_ & Hstore & _).
  rewrite (get_latest_reading_found env' _
             {| _id := generated_id env; fields := dict reading |} Hquery).
  - simpl. rewrite dict_temperature, dict_humidity. reflexivity.
  - rewrite Hstore. apply largest_id_snoc. exact Hnew.
Qed.

(** ** Requests one after the other *)

Lemma has_measurements_dict i reading :
  has_measurements {| _id := i; fields := dict reading |}.
Proof.
  exists (temperature reading), (humidity reading). simpl.
  split; [apply dict_temperature | apply dict_humidity].
Qed.

(** One request only ever appends: at most one document, and only on
    [/ingest], where the document is [reading.dict()]. *)
Lemma handle_extends rq env w :
  exists docs calls logs,
    sensor_readings (snd (handle rq env w)) = sensor_readings w ++ docs /\
    thingspeak_calls (snd (handle rq env w)) = thingspeak_calls w ++ calls /\
    log_records (snd (handle rq env w)) = log_records w ++ logs /\
    (length docs <= if is_ingest rq then 1 else 0)%nat /\
    Forall has_measurements docs.
Proof.
  destruct rq as [reading x_api_key | temperature humidity |]; simpl handle.
  - destruct (decide (x_api_key = iot_api_key env)) as [Hkey | Hne].
    + destruct (insert_one_cases (dict reading) env w) as [[r Hr] | [e He]].
      * rewrite (ingest_data_run _ _ _ _ _ Hkey Hr).
        destruct (send_data_outcome env (temperature reading) (humidity reading));
          simpl; eexists [_], [_], [_; _];
          rewrite <- app_assoc; repeat split; auto;
          repeat constructor; apply has_measurements_dict.
      * rewrite (ingest_data_run_insert_raises _ _ _ _ _ Hkey He). simpl.
        exists [], []. eexists [_]. rewrite !app_nil_r.
        repeat split; auto.
    + rewrite (ingest_data_mismatch _ _ _ _ Hne). simpl.
      exists [], [], []. rewrite !app_nil_r. repeat split; auto.
  - rewrite test_thingspeak_run. cbv zeta.
    destruct (send_data_outcome env temperature humidity) as [[|] | e]; simpl.
    + exists []. eexists [_]. exists []. rewrite !app_nil_r. repeat split; auto.
    + exists []. eexists [_], [_]. rewrite !app_nil_r. repeat split; auto.
    + exists []. eexists [_], [_]. rewrite !app_nil_r. repeat split; auto.
  - exists [], [], []. rewrite !app_nil_r.
    destruct (get_latest_reading_cases env w)
      as [(d & _ & _ & ->) | (_ & detail & ->)]; simpl; repeat split; auto.
Qed.

Lemma serve_cons env rq rest w :
  snd (serve ((env, rq) :: rest) w) = snd (serve rest (snd (handle rq env w))).
Proof.
  simpl. destruct (handle rq env w) as [answer w']. simpl.
  destruct (serve rest w') as [answers w'']. reflexivity.
Qed.

Lemma serve_extends requests : forall w,
  exists docs calls logs,
    sensor_readings (snd (serve requests w)) = sensor_readings w ++ docs /\
    thingspeak_calls (snd (serve requests w)) = thingspeak_calls w ++ calls /\
    log_records (snd (serve requests w)) = log_records w ++ logs /\
    (length docs <= count_ingest requests)%nat /\
    Forall has_measurements docs.
Proof.
  induction requests as [| [env rq] rest IH]; intros w.
  - exists [], [], []. simpl. rewrite !app_nil_r. repeat split; auto.
  - rewrite serve_cons.
    destruct (handle_extends rq env w)
      as (docs1 & calls1 & logs1 & Hd1 & Hc1 & Hl1 & Hn1 & Hm1).
    destruct (IH (snd (handle rq env w)))
      as (docs2 & calls2 & logs2 & Hd2 & Hc2 & Hl2 & Hn2 & Hm2).
    exists (docs1 ++ docs2), (calls1 ++ calls2), (logs1 ++ logs2).
    rewrite Hd2, Hc2, Hl2, Hd1, Hc1, Hl1, <- !app_assoc.
    repeat split.
    + rewrite length_app. unfold count_ingest in *. simpl.
      destruct (is_ingest rq); simpl; lia.
    + apply Forall_app. split; assumption.
Qed.

(** X9: over any run of requests the collection is insert-only: the
    documents there before stay, unchanged and in place, as a prefix of
    the collection after; it grows by at most one document per [/ingest]
    request; and the relay calls and the log only grow too. *)
Theorem serve_insert_only requests w :
  sensor_readings w `prefix_of` sensor_readings (snd (serve requests w)) /\
  (length (sensor_readings (snd (serve requests w)))
     <= length (sensor_readings w) + count_ingest requests)%nat /\
  thingspeak_calls w `prefix_of` thingspeak_calls (snd (serve requests w)) /\
  log_records w `prefix_of` log_records (snd (serve requests w)).
Proof.
  destruct (serve_extends requests w)
    as (docs & calls & logs & -> & -> & -> & Hn & _).
  repeat split; try (eexists; reflexivity).
  rewrite length_app. lia.
Qed.

(** X10: when every stored document carries a float temperature and
    humidity, so does every document after any run of requests, since
    [/ingest] stores [reading.dict()]; and a body [/latest] then returns
    holds two floats, never the default zero. *)
Theorem serve_keeps_measurements requests w :
  Forall has_measurements (sensor_readings w) ->
  Forall has_measurements (sensor_readings (snd (serve requests w))) /\
  (forall env body,
      fst (get_latest_reading env (snd (serve requests w))) = Return body ->
      exists t h,
        body !! "temperatura" = Some (VFloat t) /\
        body !! "umidade" = Some (VFloat h)).
Proof.
  intros Hw.
  assert (Hall : Forall has_measurements (sensor_readings (snd (serve requests w)))).
  { destruct (serve_extends requests w)
      as (docs & calls & logs & -> & _ & _ & _ & Hdocs).
    apply Forall_app. split; assumption. }
  split; [exact Hall |].
  intros env body.
  destruct (get_latest_reading_cases env (snd (serve requests w)))
    as [(d & _ & Hd & ->) | (_ & detail & ->)]; simpl; [| discriminate].
  intros [= <-].
  apply largest_id_elem in Hd.
  rewrite Forall_forall in Hall.
  destruct (Hall d Hd) as (t & h & Ht & Hh).
  exists t, h. rewrite Ht, Hh. simpl.
  split.
  - apply lookup_insert_eq.
  - rewrite lookup_insert_ne by discriminate. apply lookup_insert_eq.
Qed.

End Handlers.

(** ** The handlers run on concrete requests *)

(** The spec's end-to-end scenario: a reading is ingested with the valid
    credential, and [/latest] then shows it. *)
Example ingest_then_latest :
  let w1 := snd (ingest_data starlette_str reading_25_80 (Some "secret")
                   env_ok empty_world) in
  fst (ingest_data starlette_str reading_25_80 (Some "secret") env_ok empty_world) =
    Return {[ "status" := VStr "ok"; "id" := VStr "0000000000000000000003e8" ]} /\
  fst (get_latest_reading starlette_str env_ok w1) =
    Return {[ "temperatura" := VFloat 25.5%float;
              "umidade" := VFloat 80%float;
              "onibus" := VList [VStr "Bus 101"; VStr "Bus 202"] ]}.
Proof. split; vm_compute; reflexivity. Qed.

(** C1, as stated, fails: the credential matches, the insert returns, the
    relay call raises, and the answer is 500 instead of the
    acknowledgment. *)
Lemma ingest_data_relay_raises_500 :
  Some "secret" = iot_api_key env_relay_raises /\
  fst (insert_one (dict reading_25_80) env_relay_raises empty_world) =
    Return {| inserted_id := 1002%N |} /\
  send_data_outcome env_relay_raises (temperature reading_25_80)
    (humidity reading_25_80) = Raise (OtherException "connection reset") /\
  fst (ingest_data starlette_str reading_25_80 (Some "secret")
         env_relay_raises empty_world) =
    Raise (HTTPException 500 "connection reset").
Proof. repeat split; vm_compute; reflexivity. Qed.

Lemma ingest_data_relay_outcome_witness :
  fst (ingest_data starlette_str reading_25_80 (Some "secret")
         env_relay_false empty_world) =
    Return {[ "status" := VStr "ok"; "id" := VStr "0000000000000000000003e9" ]} /\
  fst (ingest_data starlette_str reading_25_80 (Some "secret")
         env_relay_raises empty_world) =
    Raise (HTTPException 500 "connection reset").
Proof.
  split.
  - apply (proj1 (ingest_data_relay_outcome starlette_str reading_25_80
                    (Some "secret") env_relay_false empty_world
                    {| inserted_id := 1001%N |} eq_refl eq_refl) false).
    reflexivity.
  - apply (proj2 (ingest_data_relay_outcome starlette_str reading_25_80
                    (Some "secret") env_relay_raises empty_world
                    {| inserted_id := 1002%N |} eq_refl eq_refl)
             (OtherException "connection reset")).
    reflexivity.
Defined.

Lemma ingest_data_bad_key_witness :
  fst (ingest_data starlette_str reading_25_80 (Some "guess") env_ok world_two) =
    Raise (HTTPException 401 "Chave IoT inválida.") /\
  sensor_readings (snd (ingest_data starlette_str reading_25_80 (Some "guess")
                          env_ok world_two)) = sensor_readings world_two /\
  thingspeak_calls (snd (ingest_data starlette_str reading_25_80 (Some "guess")
                           env_ok world_two)) = thingspeak_calls world_two.
Proof.
  apply (ingest_data_bad_key starlette_str reading_25_80 (Some "guess")
           env_ok world_two).
  simpl. discriminate.
Defined.

(** C5, as stated, fails: valid reading, correct credential, the document
    is appended, and the response is a 500 because the relay call raised. *)
Lemma ingest_data_relay_raises_no_success :
  Some "secret" = iot_api_key env_relay_raises /\
  sensor_readings (snd (ingest_data starlette_str reading_device (Some "secret")
                          env_relay_raises world_two)) =
    sensor_readings world_two
      ++ [{| _id := 1002%N; fields := dict reading_device |}] /\
  fst (ingest_data starlette_str reading_device (Some "secret")
         env_relay_raises world_two) =
    Raise (HTTPException 500 "connection reset").
Proof. repeat split; vm_compute; reflexivity. Qed.

Lemma ingest_data_inserts_one_witness :
  sensor_readings (snd (ingest_data starlette_str reading_device (Some "secret")
                          env_ok world_two)) =
    sensor_readings world_two
      ++ [{| _id := 1000%N; fields := dict reading_device |}] /\
  fst (ingest_data starlette_str reading_device (Some "secret") env_ok world_two) =
    Return {[ "status" := VStr "ok"; "id" := VStr "0000000000000000000003e8" ]}.
Proof.
  destruct (ingest_data_inserts_one starlette_str reading_device (Some "secret")
              env_ok world_two {| inserted_id := 1000%N |} true
              eq_refl eq_refl eq_refl) as (Hstore & Hbody & _ & _).
  split; [exact Hstore | exact Hbody].
Defined.

Lemma ingest_data_absent_header_witness :
  ingest_data starlette_str reading_25_80 None env_ok empty_world =
    (Raise (HTTPException 401 "Chave IoT inválida."), empty_world) /\
  http_status (fst (ingest_data starlette_str reading_25_80 None
                      env_no_secret empty_world)) <> 401.
Proof.
  split.
  - apply (proj1 (ingest_data_absent_header starlette_str reading_25_80
                    env_ok empty_world)).
    simpl. discriminate.
  - intros H.
    apply (proj1 (proj2 (ingest_data_absent_header starlette_str reading_25_80
                           env_no_secret empty_world)) H).
    reflexivity.
Defined.

Lemma ingest_data_insert_raises_witness :
  fst (ingest_data starlette_str reading_25_80 (Some "secret")
         env_db_down world_two) =
    Raise (HTTPException 500 "ServerSelectionTimeoutError") /\
  thingspeak_calls (snd (ingest_data starlette_str reading_25_80 (Some "secret")
                           env_db_down world_two)) = [] /\
  sensor_readings (snd (ingest_data starlette_str reading_25_80 (Some "secret")
                          env_db_down world_two)) = sensor_readings world_two.
Proof.
  apply (proj1 (ingest_data_insert_raises starlette_str reading_25_80
                  (Some "secret") env_db_down world_two)
           (OtherException "ServerSelectionTimeoutError"));
    reflexivity.
Defined.

Lemma test_thingspeak_false_is_500_witness :
  fst (test_thingspeak sample_str_float starlette_str 25.5%float 80%float
         env_relay_false empty_world) =
    Raise (HTTPException 500 "400: Falha ao enviar ao ThingSpeak.") /\
  http_status (fst (test_thingspeak sample_str_float starlette_str
                      25.5%float 80%float env_relay_false empty_world)) = 500.
Proof.
  apply (test_thingspeak_false_is_500 sample_str_float starlette_str
           25.5%float 80%float env_relay_false empty_world).
  reflexivity.
Defined.

Lemma test_thingspeak_success_witness :
  fst (test_thingspeak sample_str_float starlette_str 25.5%float 80%float
         env_ok empty_world) =
    Return {[ "status" := VStr "success";
              "message" := VStr "Dados enviados ao ThingSpeak: 25.5°C / 80.0%" ]}.
Proof.
  apply (proj1 (test_thingspeak_success sample_str_float starlette_str
                  25.5%float 80%float env_ok empty_world eq_refl)).
Defined.

Lemma get_latest_reading_empty_is_500_witness :
  http_status (fst (get_latest_reading starlette_str env_ok empty_world)) = 500 /\
  fst (get_latest_reading starlette_str env_ok empty_world) =
    Raise (HTTPException 500
             "Erro ao buscar última leitura: 404: Nenhum dado encontrado").
Proof.
  destruct (get_latest_reading_empty_is_500 starlette_str env_ok empty_world
              eq_refl) as [Hstatus Hdetail].
  split; [exact Hstatus | exact (Hdetail eq_refl)].
Defined.

Lemma get_latest_reading_newest_witness :
  fst (get_latest_reading starlette_str env_ok world_two) =
    Return {[ "temperatura" := VFloat 25.5%float;
              "umidade" := VFloat 80%float;
              "onibus" := VList [VStr "Bus 101"; VStr "Bus 202"] ]} /\
  fst (get_latest_reading starlette_str env_ok world_partial) =
    Return {[ "temperatura" := VFloat 21%float;
              "umidade" := VInt 0;
              "onibus" := VList [VStr "Bus 101"; VStr "Bus 202"] ]}.
Proof.
  split.
  - destruct (get_latest_reading_newest starlette_str env_ok world_two)
      as (d & _ & _ & Hlast & Hrun); [discriminate | reflexivity |].
    assert (Hd : last (sensor_readings world_two) = Some d).
    { apply Hlast. unfold ids_increasing. simpl.
      repeat constructor. }
    injection Hd as <-. exact Hrun.
  - destruct (get_latest_reading_newest starlette_str env_ok world_partial)
      as (d & _ & _ & Hlast & Hrun); [discriminate | reflexivity |].
    assert (Hd : last (sensor_readings world_partial) = Some d).
    { apply Hlast. unfold ids_increasing. simpl.
      repeat constructor. }
    injection Hd as <-. exact Hrun.
Defined.

Lemma get_latest_reading_idempotent_witness :
  get_latest_reading starlette_str env_ok
    (snd (get_latest_reading starlette_str env_ok world_two)) =
  get_latest_reading starlette_str env_ok world_two.
Proof.
  apply (proj2 (proj2 (get_latest_reading_idempotent starlette_str env_ok world_two))).
Defined.

(** ** Runs of several requests *)

(** A device posts a reading, somebody tries the relay while it answers
    [False], a second device posts while the relay is down, and the
    dashboard asks for the latest reading. *)
Definition sample_run : list (Env * request) :=
  [ (env_ok, POST_ingest reading_25_80 (Some "secret"));
    (env_relay_false, GET_test_thingspeak 25.5%float 80%float);
    (env_relay_raises, POST_ingest reading_device (Some "secret"));
    (env_ok, GET_latest) ].

Example sample_run_answers :
  http_status <$> fst (serve sample_str_float starlette_str sample_run empty_world)
    = [200; 500; 500; 200] /\
  last (fst (serve sample_str_float starlette_str sample_run empty_world)) =
    Some (Return {[ "temperatura" := VFloat 19%float;
                    "umidade" := VFloat 55%float;
                    "onibus" := VList [VStr "Bus 101"; VStr "Bus 202"] ]}).
Proof. split; vm_compute; reflexivity. Qed.

Lemma ingest_data_no_rollback_witness :
  sensor_readings (snd (ingest_data starlette_str reading_device (Some "secret")
                          env_relay_raises world_two)) =
    sensor_readings world_two
      ++ [{| _id := 1002%N; fields := dict reading_device |}] /\
  thingspeak_calls (snd (ingest_data starlette_str reading_device (Some "secret")
                           env_relay_raises world_two)) =
    [(19%float, 55%float)] /\
  http_status (fst (ingest_data starlette_str reading_device (Some "secret")
                      env_relay_raises world_two)) = 500.
Proof.
  destruct (ingest_data_no_rollback starlette_str reading_device (Some "secret")
              env_relay_raises world_two {| inserted_id := 1002%N |}
              eq_refl eq_refl) as (Hstore & Hcalls & Hstatus).
  split; [exact Hstore | split; [exact Hcalls |]].
  apply (Hstatus (OtherException "connection reset")). reflexivity.
Defined.

Lemma ingest_data_logs_success_witness :
  log_records (snd (ingest_data starlette_str reading_25_80 (Some "secret")
                      env_relay_false empty_world)) =
    [ (INFO, "📥 Sensor data saved: 0000000000000000000003e9");
      (INFO, "✅ Dados enviados ao ThingSpeak com sucesso.") ].
Proof.
  apply (ingest_data_logs_success starlette_str reading_25_80 (Some "secret")
           env_relay_false empty_world {| inserted_id := 1001%N |} false
           eq_refl eq_refl eq_refl).
Defined.

Lemma ingest_data_error_logged_witness :
  exists detail,
    fst (ingest_data starlette_str reading_25_80 (Some "secret")
           env_db_down world_two) = Raise (HTTPException 500 detail) /\
    last (log_records (snd (ingest_data starlette_str reading_25_80 (Some "secret")
                              env_db_down world_two))) =
      Some (ERROR, "❌ Erro ao processar dados do sensor: " +:+ detail).
Proof.
  apply (proj1 (ingest_data_error_logged starlette_str reading_25_80
                  (Some "secret") env_db_down world_two)).
  reflexivity.
Defined.

Lemma test_thingspeak_error_logged_witness :
  exists detail,
    fst (test_thingspeak sample_str_float starlette_str 25.5%float 80%float
           env_relay_false empty_world) = Raise (HTTPException 500 detail) /\
    log_records (snd (test_thingspeak sample_str_float starlette_str
                        25.5%float 80%float env_relay_false empty_world)) =
      log_records empty_world
        ++ [(ERROR, "❌ Erro no teste do ThingSpeak: " +:+ detail)].
Proof.
  apply (proj2 (test_thingspeak_error_logged sample_str_float starlette_str
                  25.5%float 80%float env_relay_false empty_world)).
  simpl. discriminate.
Defined.

Lemma latest_after_ingest_witness :
  http_status (fst (ingest_data starlette_str reading_device (Some "secret")
                      env_relay_raises world_two)) = 500 /\
  fst (get_latest_reading starlette_str env_ok
         (snd (ingest_data starlette_str reading_device (Some "secret")
                 env_relay_raises world_two))) =
    Return {[ "temperatura" := VFloat 19%float;
              "umidade" := VFloat 55%float;
              "onibus" := VList [VStr "Bus 101"; VStr "Bus 202"] ]}.
Proof.
  split; [reflexivity |].
  apply (latest_after_ingest starlette_str reading_device (Some "secret")
           env_relay_raises env_ok world_two {| inserted_id := 1002%N |}
           eq_refl eq_refl); [| reflexivity].
  intros d Hd. apply list_elem_of_In in Hd. simpl in Hd.
  destruct Hd as [<- | [<- | []]]; reflexivity.
Defined.

Lemma serve_keeps_measurements_witness :
  Forall has_measurements
    (sensor_readings
       (snd (serve sample_str_float starlette_str sample_run empty_world))) /\
  exists t h,
    ({[ "temperatura" := VFloat 19%float;
        "umidade" := VFloat 55%float;
        "onibus" := VList [VStr "Bus 101"; VStr "Bus 202"] ]} : pydict)
      !! "temperatura" = Some (VFloat t) /\
    ({[ "temperatura" := VFloat 19%float;
        "umidade" := VFloat 55%float;
        "onibus" := VList [VStr "Bus 101"; VStr "Bus 202"] ]} : pydict)
      !! "umidade" = Some (VFloat h).
Proof.
  destruct (serve_keeps_measurements sample_str_float starlette_str
              sample_run empty_world (Forall_nil_2 _)) as [Hall Hlatest].
  split; [exact Hall |].
  apply (Hlatest env_ok). vm_compute. reflexivity.
Defined.
